(** * Role-gated patient lookup: the access-control tool of
      [naive_agent.py] and [best_practice.py]

    Both scripts create the same two SQL tables, pre-populate them when
    they are empty, and expose one tool, [get_patient_record], that looks
    the caller up in [users], tests the role against [AUTHORIZED_ROLES] and
    only then looks the patient up in [patients].

    The embedding is shallow.  A database is the pair of its tables, each a
    list of rows in rowid order.  Code that talks to the database runs in a
    small state-and-exception monad; a [Session] works on a private view of
    the database that reaches the database only through [commit].  The SQL
    layer itself (SQLAlchemy over SQLite) is modelled at the level the
    scripts use it: [select ... where column == value] followed by
    [fetchone] is an exact-match search for the first row, [count] is the
    number of rows, and [insert] assigns a rowid, enforces the declared
    constraints and keeps the table in rowid order.  An integer parameter
    that does not fit an SQLite INTEGER makes the driver raise
    [OverflowError]; when the largest rowid is taken SQLite draws a rowid
    at random, which the model leaves to an explicit [Random] step.  A
    missing or unreadable database file is outside the model. *)

From Stdlib Require Import ZArith.
From stdpp Require Import base option list strings gmap.

Local Open Scope Z_scope.
Local Open Scope string_scope.

(** ** Tables *)

(** [users]: columns [id] (primary key), [username] (unique), [role]. *)
Module User.
Record t : Type := mk { id : Z; username : string; role : string }.

#[global] Instance eq_dec : EqDecision t.
Proof. solve_decision. Defined.
End User.

(** [patients]: columns [id] (primary key), [name], [provider_name],
    [condition]. *)
Module Patient.
Record t : Type :=
  mk { id : Z; name : string; provider_name : string; condition : string }.

#[global] Instance eq_dec : EqDecision t.
Proof. solve_decision. Defined.
End Patient.

Record database : Type :=
  Database { users : list User.t; patients : list Patient.t }.

#[global] Instance database_eq_dec : EqDecision database.
Proof. solve_decision. Defined.

(** The database right after [metadata.create_all] on a fresh file. *)
Definition empty_database : database := Database [] [].

(** An SQLite INTEGER is a signed 64-bit integer. *)
Definition min_int64 : Z := - 2 ^ 63.
Definition max_int64 : Z := 2 ^ 63 - 1.

Definition in_int64 (z : Z) : Prop := (min_int64 ≤ z ≤ max_int64)%Z.

#[global] Instance in_int64_dec (z : Z) : Decision (in_int64 z).
Proof. unfold in_int64. apply _. Defined.

(** The constraints declared in the two [Table] definitions: the primary
    keys and the usernames are unique, and the [Integer] columns hold
    SQLite INTEGERs. *)
Definition schema_ok (db : database) : Prop :=
  NoDup (User.id <$> users db) ∧
  NoDup (User.username <$> users db) ∧
  NoDup (Patient.id <$> patients db) ∧
  Forall in_int64 (User.id <$> users db) ∧
  Forall in_int64 (Patient.id <$> patients db).

(** ** Values handed back to the agent *)

Inductive pyval : Type :=
  | PyInt (z : Z)
  | PyStr (s : string).

#[global] Instance pyval_eq_dec : EqDecision pyval.
Proof. solve_decision. Defined.

(** A Python [dict] with string keys. *)
Abbreviation dict := (gmap string pyval).

(** ** The monad of database code *)

(** The constraint an insert can fail on. *)
Inductive constraint : Type :=
  | NOT_NULL
  | UNIQUE.

(** The exceptions that reach the scripts: [IntegrityError] and
    [OperationalError] from the database, [OverflowError] from the driver
    when it binds a parameter. *)
Inductive exn : Type :=
  | IntegrityError (failed : constraint)
  | OperationalError
  | OverflowError.

(** How a computation ends: with a value, with an exception, or at a draw
    of SQLite's random rowid search, from which it goes on.  [Random s k]
    is reached in state [s]; the search hands [k] the unused positive
    rowid it found, or [None] when it gave up. *)
Inductive outcome (S A : Type) : Type :=
  | Return (a : A) (s : S)
  | Raise (e : exn) (s : S)
  | Random (s : S) (k : option Z → outcome S A).
Arguments Return {S A} a s.
Arguments Raise {S A} e s.
Arguments Random {S A} s k.

Definition M (S A : Type) : Type := S → outcome S A.

Definition ret {S A} (a : A) : M S A := λ s, Return a s.

Fixpoint outcome_bind {S A B} (o : outcome S A) (k : A → M S B)
    : outcome S B :=
  match o with
  | Return a s' => k a s'
  | Raise e s' => Raise e s'
  | Random s' g => Random s' (λ z, outcome_bind (g z) k)
  end.

Definition bind {S A B} (c : M S A) (k : A → M S B) : M S B :=
  λ s, outcome_bind (c s) k.

Notation "'let*' x ':=' c 'in' k" := (bind c (λ x, k))
  (at level 10, x binder, c at level 100, k at level 200).

(** ** Sessions *)

(** What a [Session] sees: the database as committed, and its own view
    with the rows it has inserted and not yet committed. *)
Record session : Type :=
  Session { committed : database; pending : database }.

(** Closing a session drops whatever was not committed and leaves the
    database as committed, however the body of the block ended. *)
Fixpoint close_session {A} (o : outcome session A) : outcome database A :=
  match o with
  | Return a s => Return a (committed s)
  | Raise e s => Raise e (committed s)
  | Random s k => Random (committed s) (λ z, close_session (k z))
  end.

(** [with Session(engine) as session: body].  Leaving the block closes the
    session; an exception leaves the block the same way and goes on to the
    caller. *)
Definition with_session {A} (body : M session A) : M database A :=
  λ db, close_session (body (Session db db)).

(** [session.commit()] *)
Definition commit : M session () :=
  λ s, Return () (Session (pending s) (pending s)).

(** [session.query(users).count()] and [session.query(patients).count()] *)
Definition query_users_count : M session nat :=
  λ s, Return (length (users (pending s))) s.

Definition query_patients_count : M session nat :=
  λ s, Return (length (patients (pending s))) s.

(** The rowid SQLite gives a row inserted without a value for an
    [INTEGER PRIMARY KEY] column, as long as there is one to give: 1 in an
    empty table, otherwise one more than the largest rowid present. *)
Definition next_rowid (ids : list Z) : Z :=
  match ids with
  | [] => 1
  | i :: rest => foldr Z.max i rest + 1
  end.

(** The first step of an insert.  When the largest rowid is the largest
    INTEGER there is no next one: SQLite then tries rowids at random and
    fails with "database or disk is full" when it finds none unused. *)
Definition assign_rowid {A} (ids : list Z) (k : Z → M session A)
    : M session A :=
  λ s,
    if decide (next_rowid ids ≤ max_int64)%Z then k (next_rowid ids) s
    else
      Random s (λ found,
        match found with
        | Some rowid => k rowid s
        | None => Raise OperationalError s
        end).

(** A table is kept in rowid order: the new row goes before the first row
    with a larger id. *)
Fixpoint insert_by_id {A} (id : A → Z) (r : A) (tbl : list A) : list A :=
  match tbl with
  | [] => [r]
  | x :: rest =>
      if decide (id r < id x)%Z then r :: x :: rest
      else x :: insert_by_id id r rest
  end.

(** One [INSERT INTO users], with the values of one entry of the
    parameter list, or with no values at all ([None]). *)
Definition insert_user (row : option (string * string)) : M session () :=
  λ s,
    let tbl := users (pending s) in
    assign_rowid (User.id <$> tbl) (λ rowid s,
      match row with
      | None => Raise (IntegrityError NOT_NULL) s
      | Some (username, role) =>
          if bool_decide (username ∈ User.username <$> tbl) then
            Raise (IntegrityError UNIQUE) s
          else
            Return ()
              (Session (committed s)
                 (Database
                    (insert_by_id User.id (User.mk rowid username role) tbl)
                    (patients (pending s))))
      end) s.

(** One [INSERT INTO patients], likewise. *)
Definition insert_patient (row : option (string * string * string))
    : M session () :=
  λ s,
    let tbl := patients (pending s) in
    assign_rowid (Patient.id <$> tbl) (λ rowid s,
      match row with
      | None => Raise (IntegrityError NOT_NULL) s
      | Some (name, provider_name, condition) =>
          Return ()
            (Session (committed s)
               (Database
                  (users (pending s))
                  (insert_by_id Patient.id
                     (Patient.mk rowid name provider_name condition) tbl)))
      end) s.

(** The entries of a parameter list one after the other, stopping at the
    first that fails. *)
Fixpoint insert_each {R} (insert_row : option R → M session ())
    (rows : list R) : M session () :=
  match rows with
  | [] => ret ()
  | row :: rest =>
      let* _ := insert_row (Some row) in
      insert_each insert_row rest
  end.

(** [session.execute(table.insert(), [row, ...])].  With an empty list the
    statement is executed once, without values. *)
Definition execute_insert {R} (insert_row : option R → M session ())
    (rows : list R) : M session () :=
  match rows with
  | [] => insert_row None
  | _ :: _ => insert_each insert_row rows
  end.

(** The two lookups of the record store.  [select(...).where(column ==
    value)] followed by [fetchone()] yields the first row, in rowid order,
    whose column equals the value, or [None]. *)
Definition role_of (db : database) (name : string) : option string :=
  User.role <$> find (λ r, bool_decide (User.username r = name)) (users db).

Definition patient_by_id (db : database) (patient_id : Z)
    : option Patient.t :=
  find (λ r, bool_decide (Patient.id r = patient_id)) (patients db).

(** [session.execute(select(users.c.role)
       .where(users.c.username == name)).fetchone()],
    the one-column row already projected to its column. *)
Definition select_role (name : string) : M session (option string) :=
  λ s, Return (role_of (pending s) name) s.

(** [session.execute(select(patients)
       .where(patients.c.id == patient_id)).fetchone()].  The driver binds
    [patient_id] as an SQLite INTEGER and raises when it does not fit. *)
Definition select_patient (patient_id : Z) : M session (option Patient.t) :=
  λ s,
    if decide (in_int64 patient_id) then
      Return (patient_by_id (pending s) patient_id) s
    else Raise OverflowError s.

(** ** Pre-population (the same block in both scripts) *)

Definition seed_users : list (string * string) :=
  [ ("dr_smith", "doctor");
    ("nurse_johnson", "nurse");
    ("receptionist_amy", "receptionist") ].

Definition seed_patients : list (string * string * string) :=
  [ ("John Doe", "Dr. Smith", "Flu");
    ("Jane Roe", "Dr. Smith", "Diabetes");
    ("Mary Major", "Dr. Brown", "Asthma") ].

Definition pre_populate : M database () :=
  with_session (
    let* n := query_users_count in
    let* _ := (if decide (n = 0%nat)
               then execute_insert insert_user seed_users
               else ret ()) in
    let* m := query_patients_count in
    let* _ := (if decide (m = 0%nat)
               then execute_insert insert_patient seed_patients
               else ret ()) in
    commit).

(** ** The access-control tool *)

Definition AUTHORIZED_ROLES : gset string := {[ "doctor"; "nurse" ]}.

Definition user_not_found : dict :=
  {[ "error" := PyStr "Access denied: user not found" ]}.

Definition insufficient_privileges : dict :=
  {[ "error" := PyStr "Access denied: insufficient privileges" ]}.

Definition patient_not_found : dict :=
  {[ "error" := PyStr "Patient not found" ]}.

(** The mapping built from [patient_result] on the last lines of
    [get_patient_record]. *)
Definition patient_record (patient_result : Patient.t) : dict :=
  {[ "id" := PyInt (Patient.id patient_result);
     "name" := PyStr (Patient.name patient_result);
     "provider_name" := PyStr (Patient.provider_name patient_result);
     "condition" := PyStr (Patient.condition patient_result) ]}.

(** [naive_agent.py]: the caller's name is an argument of every call. *)
Module Naive.

Definition get_patient_record (logged_in_user : string) (patient_id : Z)
    : M database dict :=
  with_session (
    let* user_result := select_role logged_in_user in
    match user_result with
    | None => ret user_not_found
    | Some user_role =>
        if decide (user_role ∉ AUTHORIZED_ROLES) then
          ret insufficient_privileges
        else
          let* patient_result := select_patient patient_id in
          match patient_result with
          | None => ret patient_not_found
          | Some row => ret (patient_record row)
          end
    end).

(** The calls the agent makes through its one tool, in order.  The tool
    is [get_patient_record] itself, so every call brings its own
    [logged_in_user] along with the patient id. *)
Fixpoint tool_calls (calls : list (string * Z)) : M database (list dict) :=
  match calls with
  | [] => ret []
  | (logged_in_user, patient_id) :: rest =>
      let* r := get_patient_record logged_in_user patient_id in
      let* rs := tool_calls rest in
      ret (r :: rs)
  end.

End Naive.

(** [best_practice.py]: the caller's name is fixed when the wrapper is
    built, and the tool takes the patient id only. *)
Module BestPractice.

Record DatabaseAccessWrapper : Type := { user_id : string }.

Definition __init__ (user_id : string) : DatabaseAccessWrapper :=
  {| user_id := user_id |}.

Definition get_user_role (self : DatabaseAccessWrapper)
    : M database (option string) :=
  with_session (
    let* user_result := select_role (user_id self) in
    match user_result with
    | None => ret None
    | Some role => ret (Some role)
    end).

Definition get_patient_record (self : DatabaseAccessWrapper)
    (patient_id : Z) : M database dict :=
  let* user_role := get_user_role self in
  match user_role with
  | None => ret user_not_found
  | Some user_role =>
      if decide (user_role ∉ AUTHORIZED_ROLES) then
        ret insufficient_privileges
      else
        with_session (
          let* patient_result := select_patient patient_id in
          match patient_result with
          | None => ret patient_not_found
          | Some row => ret (patient_record row)
          end)
  end.

(** The calls an agent built by [create_agent_for_user] makes through its
    one tool, in order; each gets the wrapper the tool was made from. *)
Fixpoint tool_calls (wrapper : DatabaseAccessWrapper)
    (patient_ids : list Z) : M database (list dict) :=
  match patient_ids with
  | [] => ret []
  | patient_id :: rest =>
      let* r := get_patient_record wrapper patient_id in
      let* rs := tool_calls wrapper rest in
      ret (r :: rs)
  end.

End BestPractice.

(** The database both scripts work on once their start-up code has run on
    a fresh file. *)
Definition seeded_database : database :=
  Database
    [ User.mk 1 "dr_smith" "doctor";
      User.mk 2 "nurse_johnson" "nurse";
      User.mk 3 "receptionist_amy" "receptionist" ]
    [ Patient.mk 1 "John Doe" "Dr. Smith" "Flu";
      Patient.mk 2 "Jane Roe" "Dr. Smith" "Diabetes";
      Patient.mk 3 "Mary Major" "Dr. Brown" "Asthma" ].

(** ** Statements about a call *)

(** The state a computation ends in, returned or raised (or has reached,
    at a draw). *)
Definition final_state {S A} (o : outcome S A) : S :=
  match o with
  | Return _ s => s
  | Raise _ s => s
  | Random s _ => s
  end.

(** Both variants answer [d] and leave the database as it was. *)
Definition both_return (u : string) (p : Z) (db : database) (d : dict)
    : Prop :=
  Naive.get_patient_record u p db = Return d db ∧
  BestPractice.get_patient_record (BestPractice.__init__ u) p db
  = Return d db.

(** Both variants raise [e] and leave the database as it was. *)
Definition both_raise (u : string) (p : Z) (db : database) (e : exn)
    : Prop :=
  Naive.get_patient_record u p db = Raise e db ∧
  BestPractice.get_patient_record (BestPractice.__init__ u) p db
  = Raise e db.

(** The ways through the tool, as one case analysis. *)
Inductive tool_path (u : string) (p : Z) (db : database)
    : outcome database dict → Prop :=
  | path_user_absent :
      role_of db u = None →
      tool_path u p db (Return user_not_found db)
  | path_unauthorized r :
      role_of db u = Some r → r ∉ AUTHORIZED_ROLES →
      tool_path u p db (Return insufficient_privileges db)
  | path_overflow r :
      role_of db u = Some r → r ∈ AUTHORIZED_ROLES →
      ¬ in_int64 p →
      tool_path u p db (Raise OverflowError db)
  | path_patient_absent r :
      role_of db u = Some r → r ∈ AUTHORIZED_ROLES →
      in_int64 p → patient_by_id db p = None →
      tool_path u p db (Return patient_not_found db)
  | path_patient_found r row :
      role_of db u = Some r → r ∈ AUTHORIZED_ROLES →
      in_int64 p → patient_by_id db p = Some row →
      tool_path u p db (Return (patient_record row) db).

(** * Properties *)

(** ** Lookups by key *)

Section find_by_key.
Context {A K : Type} `{EqDecision K} (key : A → K).

Lemma find_key_None (k : K) (l : list A) :
  find (λ r, bool_decide (key r = k)) l = None ↔ k ∉ key <$> l.
Proof.
  induction l as [|a l IH]; simpl.
  - split; [intros _; apply not_elem_of_nil | done].
  - rewrite not_elem_of_cons. case_bool_decide as Hk.
    + split; [done | intros [Hne _]; by destruct Hne].
    + rewrite IH. split; [intros Hl; split; [congruence | done] |].
      by intros [_ Hl].
Qed.


Lemma find_key_NoDup (l : list A) (a : A) :
  NoDup (key <$> l) → a ∈ l →
  find (λ r, bool_decide (key r = key a)) l = Some a.
Proof.
  induction l as [|b l IH]; simpl.
  - intros _ Hin. by apply elem_of_nil in Hin.
  - rewrite NoDup_cons. intros [Hnotin Hnd] Hin.
    apply elem_of_cons in Hin as [-> | Hin].
    + by rewrite bool_decide_eq_true_2.
    + rewrite bool_decide_eq_false_2; [by apply IH |].
      intros Heq. apply Hnotin. rewrite Heq.
      by apply list_elem_of_fmap_2.
Qed.
End find_by_key.


Lemma patient_by_id_None (db : database) (p : Z) :
  patient_by_id db p = None ↔ p ∉ Patient.id <$> patients db.
Proof. apply find_key_None. Qed.


Lemma role_of_row (db : database) (caller : User.t) :
  NoDup (User.username <$> users db) → caller ∈ users db →
  role_of db (User.username caller) = Some (User.role caller).
Proof.
  intros Hnames Hin. unfold role_of.
  by rewrite (find_key_NoDup User.username _ _ Hnames Hin).
Qed.

Lemma patient_by_id_row (db : database) (row : Patient.t) :
  schema_ok db → row ∈ patients db →
  patient_by_id db (Patient.id row) = Some row.
Proof.
  intros (_ & _ & Hids & _) Hin.
  apply (find_key_NoDup Patient.id _ _ Hids Hin).
Qed.

(** ** The result mappings are pairwise distinct *)





Lemma patient_record_inj (r1 r2 : Patient.t) :
  patient_record r1 = patient_record r2 → r1 = r2.
Proof.
  intros Heq. destruct r1 as [i1 n1 q1 c1], r2 as [i2 n2 q2 c2].
  pose proof (f_equal (λ d : dict, d !! "id") Heq) as Hi.
  pose proof (f_equal (λ d : dict, d !! "name") Heq) as Hn.
  pose proof (f_equal (λ d : dict, d !! "provider_name") Heq) as Hq.
  pose proof (f_equal (λ d : dict, d !! "condition") Heq) as Hc.
  vm_compute in Hi, Hn, Hq, Hc. congruence.
Qed.

(** ** Running the tool *)

Ltac run_tool :=
  unfold both_return, both_raise, Naive.get_patient_record,
    BestPractice.get_patient_record, BestPractice.get_user_role,
    BestPractice.__init__, with_session, bind, ret, select_role,
    select_patient;
  cbn [pending committed BestPractice.user_id outcome_bind close_session].


Lemma run_user_absent (u : string) (p : Z) (db : database) :
  role_of db u = None → both_return u p db user_not_found.
Proof. intros Hu. run_tool. rewrite Hu. split; reflexivity. Qed.

Lemma run_unauthorized (u r : string) (p : Z) (db : database) :
  role_of db u = Some r → r ∉ AUTHORIZED_ROLES →
  both_return u p db insufficient_privileges.
Proof.
  intros Hu Hr. run_tool. rewrite Hu. cbn [outcome_bind close_session].
  destruct (decide (r ∉ AUTHORIZED_ROLES)); [split; reflexivity | done].
Qed.

Lemma run_overflow (u r : string) (p : Z) (db : database) :
  role_of db u = Some r → r ∈ AUTHORIZED_ROLES → ¬ in_int64 p →
  both_raise u p db OverflowError.
Proof.
  intros Hu Hr Hp. run_tool. rewrite Hu. cbn [outcome_bind close_session].
  destruct (decide (r ∉ AUTHORIZED_ROLES)); [done |].
  destruct (decide (in_int64 p)); [done |]. split; reflexivity.
Qed.

Lemma run_patient_absent (u r : string) (p : Z) (db : database) :
  role_of db u = Some r → r ∈ AUTHORIZED_ROLES → in_int64 p →
  patient_by_id db p = None →
  both_return u p db patient_not_found.
Proof.
  intros Hu Hr Hrange Hp. run_tool. rewrite Hu.
  cbn [outcome_bind close_session].
  destruct (decide (r ∉ AUTHORIZED_ROLES)); [done |].
  destruct (decide (in_int64 p)); [| done].
  cbn [outcome_bind close_session pending committed].
  rewrite Hp. split; reflexivity.
Qed.

Lemma run_patient_found (u r : string) (p : Z) (db : database)
    (row : Patient.t) :
  role_of db u = Some r → r ∈ AUTHORIZED_ROLES → in_int64 p →
  patient_by_id db p = Some row →
  both_return u p db (patient_record row).
Proof.
  intros Hu Hr Hrange Hp. run_tool. rewrite Hu.
  cbn [outcome_bind close_session].
  destruct (decide (r ∉ AUTHORIZED_ROLES)); [done |].
  destruct (decide (in_int64 p)); [| done].
  cbn [outcome_bind close_session pending committed].
  rewrite Hp. split; reflexivity.
Qed.

Lemma both_return_fun (u : string) (p : Z) (db : database) (d1 d2 : dict) :
  both_return u p db d1 → both_return u p db d2 → d1 = d2.
Proof. intros [H1 _] [H2 _]. congruence. Qed.

Lemma tool_path_runs (u : string) (p : Z) (db : database)
    (o : outcome database dict) :
  tool_path u p db o →
  Naive.get_patient_record u p db = o ∧
  BestPractice.get_patient_record (BestPractice.__init__ u) p db = o.
Proof.
  destruct 1.
  - by apply run_user_absent.
  - by eapply run_unauthorized.
  - by eapply run_overflow.
  - by eapply run_patient_absent.
  - by eapply run_patient_found.
Qed.

Lemma tool_path_total (u : string) (p : Z) (db : database) :
  ∃ o, tool_path u p db o.
Proof.
  destruct (role_of db u) as [r|] eqn:Hu;
    [| eexists; by apply path_user_absent].
  destruct (decide (r ∈ AUTHORIZED_ROLES)) as [Hr|Hr];
    [| eexists; by eapply path_unauthorized].
  destruct (decide (in_int64 p)) as [Hrange|Hrange];
    [| eexists; by eapply path_overflow].
  destruct (patient_by_id db p) as [row|] eqn:Hp; eexists.
  - by eapply path_patient_found.
  - by eapply path_patient_absent.
Qed.


(** ** Pre-population *)

Lemma seeded_schema_ok : schema_ok seeded_database.
Proof.
  unfold schema_ok, seeded_database; cbn [users patients fmap list_fmap].
  repeat split; apply (bool_decide_unpack _); vm_compute; exact I.
Qed.

Lemma pre_populate_fresh :
  pre_populate empty_database = Return () seeded_database.
Proof. vm_compute. reflexivity. Qed.

(** Whatever the database holds, the block ends normally, and each table
    is filled when it was empty and left alone when it was not. *)
Lemma pre_populate_run (db : database) :
  pre_populate db
  = Return ()
      (Database
         (match users db with [] => users seeded_database | _ => users db end)
         (match patients db with
          | [] => patients seeded_database
          | _ => patients db
          end)).
Proof.
  destruct db as [[|u us] [|q qs]]; reflexivity.
Qed.

Lemma pre_populate_schema_ok (db db' : database) :
  schema_ok db → pre_populate db = Return () db' → schema_ok db'.
Proof.
  intros (Hid & Hname & Hpid & Hur & Hpr).
  rewrite pre_populate_run. intros [= <-].
  destruct seeded_schema_ok as (Sid & Sname & Spid & Sur & Spr).
  unfold schema_ok; cbn [users patients].
  destruct (users db), (patients db); done.
Qed.

Lemma both_return_path (u : string) (p : Z) (db : database) (d : dict) :
  both_return u p db d → tool_path u p db (Return d db).
Proof.
  intros [Hn _]. destruct (tool_path_total u p db) as [o Hpath].
  destruct (tool_path_runs _ _ _ _ Hpath) as [Hn' _].
  by rewrite <- Hn, Hn'.
Qed.

(** * The claims *)




(** C2 (as amended). For a caller with a row in [users] whose role is
    authorized: when a row of [patients] has the requested id the answer
    is exactly that row, field by field; when none has it and the id lies
    in the signed 64-bit range the answer is the patient-not-found denial;
    when the id lies outside that range the call raises [OverflowError].
    On the pre-populated database [("dr_smith", 3)] gives Mary Major's
    record and [("nurse_johnson", 99)] gives
    [{"error": "Patient not found"}]. *)
Theorem authorized_caller_lookup :
  (∀ (db : database) (caller : User.t) (p : Z),
     schema_ok db → caller ∈ users db →
     User.role caller ∈ AUTHORIZED_ROLES →
     (∀ row, row ∈ patients db → Patient.id row = p →
        both_return (User.username caller) p db
          {[ "id" := PyInt (Patient.id row);
             "name" := PyStr (Patient.name row);
             "provider_name" := PyStr (Patient.provider_name row);
             "condition" := PyStr (Patient.condition row) ]}) ∧
     (p ∉ Patient.id <$> patients db → in_int64 p →
        both_return (User.username caller) p db
          {[ "error" := PyStr "Patient not found" ]}) ∧
     (¬ in_int64 p →
        both_raise (User.username caller) p db OverflowError)) ∧
  pre_populate empty_database = Return () seeded_database ∧
  both_return "dr_smith" 3 seeded_database
    {[ "id" := PyInt 3;
       "name" := PyStr "Mary Major";
       "provider_name" := PyStr "Dr. Brown";
       "condition" := PyStr "Asthma" ]} ∧
  both_return "nurse_johnson" 99 seeded_database
    {[ "error" := PyStr "Patient not found" ]}.
Proof.
  split; [| split; [apply pre_populate_fresh | split]].
  - intros db caller p Hok Hin Hrole.
    pose proof Hok as (_ & Hnames & _ & _ & Hrange).
    pose proof (role_of_row db caller Hnames Hin) as Hu.
    split; [| split].
    + intros row Hrow <-.
      apply (run_patient_found _ _ _ _ row Hu Hrole).
      * rewrite Forall_forall in Hrange. apply Hrange.
        by apply list_elem_of_fmap_2.
      * by apply patient_by_id_row.
    + intros Hno Hp. apply (run_patient_absent _ _ _ _ Hu Hrole Hp).
      by apply patient_by_id_None.
    + intros Hp. by apply (run_overflow _ _ _ _ Hu Hrole).
  - split; vm_compute; reflexivity.
  - split; vm_compute; reflexivity.
Qed.

Lemma authorized_caller_lookup_witness :
  both_return "nurse_johnson" 2 seeded_database
    (patient_record (Patient.mk 2 "Jane Roe" "Dr. Smith" "Diabetes")) ∧
  both_return "nurse_johnson" 7 seeded_database patient_not_found.
Proof.
  pose proof (proj1 authorized_caller_lookup seeded_database
                (User.mk 2 "nurse_johnson" "nurse")) as H.
  split.
  - refine (proj1 (H 2 seeded_schema_ok _ _)
              (Patient.mk 2 "Jane Roe" "Dr. Smith" "Diabetes") _ eq_refl).
    + apply (bool_decide_unpack _). vm_compute. exact I.
    + apply (bool_decide_unpack _). vm_compute. exact I.
    + apply (bool_decide_unpack _). vm_compute. exact I.
  - refine (proj1 (proj2 (H 7 seeded_schema_ok _ _)) _ _).
    + apply (bool_decide_unpack _). vm_compute. exact I.
    + apply (bool_decide_unpack _). vm_compute. exact I.
    + apply (bool_decide_unpack _). vm_compute. exact I.
    + apply (bool_decide_unpack _). vm_compute. exact I.
Defined.

Lemma authorized_caller_lookup_counterexample :
  User.mk 1 "dr_smith" "doctor" ∈ users seeded_database ∧
  "doctor" ∈ AUTHORIZED_ROLES ∧
  ((2 ^ 63)%Z ∉ (Patient.id <$> patients seeded_database)) ∧
  ¬ both_return "dr_smith" (2 ^ 63) seeded_database
      {[ "error" := PyStr "Patient not found" ]}.
Proof.
  split; [apply (bool_decide_unpack _); vm_compute; exact I |].
  split; [apply (bool_decide_unpack _); vm_compute; exact I |].
  split; [apply (bool_decide_unpack _); vm_compute; exact I |].
  intros [Hn _].
  assert (Naive.get_patient_record "dr_smith" (2 ^ 63) seeded_database
          = Raise OverflowError seeded_database) as Hrun
    by (vm_compute; reflexivity).
  rewrite Hrun in Hn. discriminate.
Qed.



(** C4. A caller with a row in [users] whose role is not authorized gets
    the insufficient-privileges denial for every patient id; two calls by
    that caller give the same answer whatever the two ids and whatever
    [patients] holds, so the answer says nothing about which patients
    exist. *)
Theorem unauthorized_role_denied (us : list User.t)
    (ps ps' : list Patient.t) (caller : User.t) (p p' : Z) :
  NoDup (User.username <$> us) → caller ∈ us →
  User.role caller ∉ AUTHORIZED_ROLES →
  ∃ d : dict,
    d = {[ "error" := PyStr "Access denied: insufficient privileges" ]} ∧
    both_return (User.username caller) p (Database us ps) d ∧
    both_return (User.username caller) p' (Database us ps) d ∧
    both_return (User.username caller) p' (Database us ps') d.
Proof.
  intros Hnames Hin Hrole. eexists; split; [reflexivity |].
  repeat split;
    try (apply (run_unauthorized _ (User.role caller)); [| done];
         by apply (role_of_row (Database us _))).
Qed.

Lemma unauthorized_role_denied_witness :
  ∃ d : dict,
    d = {[ "error" := PyStr "Access denied: insufficient privileges" ]} ∧
    both_return "receptionist_amy" 3 seeded_database d ∧
    both_return "receptionist_amy" 99 seeded_database d ∧
    both_return "receptionist_amy" 99 (Database (users seeded_database) []) d.
Proof.
  apply (unauthorized_role_denied (users seeded_database)
           (patients seeded_database) []
           (User.mk 3 "receptionist_amy" "receptionist") 3 99).
  - apply (bool_decide_unpack _). vm_compute. exact I.
  - apply (bool_decide_unpack _). vm_compute. exact I.
  - apply (bool_decide_unpack _). vm_compute. exact I.
Defined.




(** C6. Pre-populating an empty database and then pre-populating again
    leaves exactly three rows in [users] and three in [patients], none
    twice; the second run changes nothing.  From any database, a second
    run changes nothing, and a run leaves every non-empty table as it
    was. *)
Theorem seeding_idempotent :
  (∃ db1 db2 : database,
     pre_populate empty_database = Return () db1 ∧
     pre_populate db1 = Return () db2 ∧
     db2 = db1 ∧
     length (users db2) = 3%nat ∧ length (patients db2) = 3%nat ∧
     NoDup (users db2) ∧ NoDup (patients db2)) ∧
  (∀ db : database, ∃ db' : database,
     pre_populate db = Return () db' ∧ pre_populate db' = Return () db') ∧
  (∀ db : database, ∃ db' : database,
     pre_populate db = Return () db' ∧
     (users db ≠ [] → users db' = users db) ∧
     (patients db ≠ [] → patients db' = patients db)).
Proof.
  split; [| split].
  - exists seeded_database, seeded_database.
    split; [apply pre_populate_fresh |].
    split; [by rewrite pre_populate_run |].
    repeat split; apply (bool_decide_unpack _); vm_compute; exact I.
  - intros db. eexists. split; [apply pre_populate_run |].
    rewrite pre_populate_run; cbn [users patients].
    destruct (users db), (patients db); reflexivity.
  - intros db. eexists. split; [apply pre_populate_run |].
    cbn [users patients].
    split; intros Hne; [by destruct (users db) | by destruct (patients db)].
Qed.

Lemma seeding_idempotent_witness :
  ∃ db' : database,
    pre_populate seeded_database = Return () db' ∧
    users db' = users seeded_database ∧
    patients db' = patients seeded_database.
Proof.
  destruct (proj2 (proj2 seeding_idempotent) seeded_database)
    as (db' & Hrun & Hu & Hp).
  exists db'. split; [exact Hrun |]. split.
  - apply Hu. vm_compute. discriminate.
  - apply Hp. vm_compute. discriminate.
Defined.

(** C7. Pre-populating an empty database stores exactly the fixed rows:
    the three users, and the three patients under the ids 1, 2 and 3 in
    the order of the insert, although the insert names no id. *)
Theorem seed_data_exact :
  ∃ db : database,
    pre_populate empty_database = Return () db ∧
    users db
    = [ User.mk 1 "dr_smith" "doctor";
        User.mk 2 "nurse_johnson" "nurse";
        User.mk 3 "receptionist_amy" "receptionist" ] ∧
    ((λ r, (User.username r, User.role r)) <$> users db) = seed_users ∧
    patients db
    = [ Patient.mk 1 "John Doe" "Dr. Smith" "Flu";
        Patient.mk 2 "Jane Roe" "Dr. Smith" "Diabetes";
        Patient.mk 3 "Mary Major" "Dr. Brown" "Asthma" ] ∧
    execute_insert insert_patient seed_patients
      (Session empty_database empty_database)
    = Return () (Session empty_database (Database [] (patients db))).
Proof.
  exists seeded_database.
  split; [apply pre_populate_fresh |]. repeat split.
Qed.



(** C9. A call changes neither table: the database after the call is the
    database before it, whether the call returned a record or any of the
    three denials. *)
Theorem lookup_leaves_database (u : string) (p : Z) (db : database) :
  final_state (Naive.get_patient_record u p db) = db ∧
  final_state
    (BestPractice.get_patient_record (BestPractice.__init__ u) p db) = db ∧
  users (final_state (Naive.get_patient_record u p db)) = users db ∧
  patients (final_state (Naive.get_patient_record u p db)) = patients db.
Proof.
  destruct (tool_path_total u p db) as [o Hpath].
  destruct (tool_path_runs _ _ _ _ Hpath) as [-> ->].
  by destruct Hpath.
Qed.

(** C10. The role is the only thing checked: a caller with an authorized
    role reads every stored patient, whatever the patient's fields, the
    provider among them, and gets the row field by field; callers with the
    same role get the same answers.  On the pre-populated database both
    [nurse_johnson] and [dr_smith] read patient 3, whose provider is
    Dr. Brown. *)
Theorem role_is_the_only_check :
  (∀ (db : database) (caller : User.t) (row : Patient.t),
     schema_ok db → caller ∈ users db →
     User.role caller ∈ AUTHORIZED_ROLES → row ∈ patients db →
     both_return (User.username caller) (Patient.id row) db
       {[ "id" := PyInt (Patient.id row);
          "name" := PyStr (Patient.name row);
          "provider_name" := PyStr (Patient.provider_name row);
          "condition" := PyStr (Patient.condition row) ]}) ∧
  (∀ (db : database) (c1 c2 : User.t) (p : Z) (d : dict),
     schema_ok db → c1 ∈ users db → c2 ∈ users db →
     User.role c1 = User.role c2 →
     both_return (User.username c1) p db d →
     both_return (User.username c2) p db d) ∧
  both_return "nurse_johnson" 3 seeded_database
    {[ "id" := PyInt 3;
       "name" := PyStr "Mary Major";
       "provider_name" := PyStr "Dr. Brown";
       "condition" := PyStr "Asthma" ]} ∧
  both_return "dr_smith" 3 seeded_database
    {[ "id" := PyInt 3;
       "name" := PyStr "Mary Major";
       "provider_name" := PyStr "Dr. Brown";
       "condition" := PyStr "Asthma" ]}.
Proof.
  split; [| split; [| split]].
  - intros db caller row Hok Hin Hrole Hrow.
    pose proof Hok as (_ & Hnames & _ & _ & Hrange).
    apply (run_patient_found _ (User.role caller)); [| done | |].
    + by apply role_of_row.
    + rewrite Forall_forall in Hrange. apply Hrange.
      by apply list_elem_of_fmap_2.
    + by apply patient_by_id_row.
  - intros db c1 c2 p d (_ & Hnames & _) H1 H2 Hrole Hret.
    pose proof (role_of_row db c1 Hnames H1) as Hu1.
    pose proof (role_of_row db c2 Hnames H2) as Hu2.
    rewrite <- Hrole in Hu2. apply both_return_path in Hret.
    apply tool_path_runs.
    inversion Hret as [Hu | r Hu Hr | r Hu Hr Hp | r Hu Hr Hp Hf
                      | r row' Hu Hr Hp Hf]; subst;
      rewrite Hu1 in Hu; simplify_eq.
    + by eapply path_unauthorized.
    + by eapply path_patient_absent.
    + by eapply path_patient_found.
  - split; vm_compute; reflexivity.
  - split; vm_compute; reflexivity.
Qed.

Lemma role_is_the_only_check_witness :
  both_return "nurse_johnson" 1 seeded_database
    (patient_record (Patient.mk 1 "John Doe" "Dr. Smith" "Flu")).
Proof.
  apply (proj1 role_is_the_only_check seeded_database
           (User.mk 2 "nurse_johnson" "nurse")
           (Patient.mk 1 "John Doe" "Dr. Smith" "Flu")).
  - exact seeded_schema_ok.
  - apply (bool_decide_unpack _). vm_compute. exact I.
  - apply (bool_decide_unpack _). vm_compute. exact I.
  - apply (bool_decide_unpack _). vm_compute. exact I.
Defined.

(** * Further properties of the code *)

(** ** Row ids *)

Local Open Scope Z_scope.








(** ** Inserts *)



Lemma insert_user_no_room (row : option (string * string)) (s : session)
    (s' : session) :
  ¬ next_rowid (User.id <$> users (pending s)) ≤ max_int64 →
  insert_user row s ≠ Return () s'.
Proof.
  intros Hroom. unfold insert_user, assign_rowid.
  by rewrite decide_False by done.
Qed.











(** ** Pre-population on a database that already holds rows *)

(** X4. Pre-population keeps the constraints of the two tables: run on a
    database whose ids and usernames are distinct, it returns a database
    whose ids and usernames are distinct. *)
Theorem seeding_keeps_constraints (db : database) :
  schema_ok db →
  ∃ db' : database, pre_populate db = Return () db' ∧ schema_ok db'.
Proof.
  intros Hok. eexists. split; [apply pre_populate_run |].
  apply (pre_populate_schema_ok db); [done | apply pre_populate_run].
Qed.

Lemma seeding_keeps_constraints_witness :
  ∃ db' : database,
    pre_populate (Database [User.mk 7 "admin" "admin"] [])
    = Return () db' ∧
    schema_ok db'.
Proof.
  apply (seeding_keeps_constraints (Database [User.mk 7 "admin" "admin"] [])).
  repeat split; apply (bool_decide_unpack _); vm_compute; exact I.
Defined.



(** ** The role lookup of the wrapper *)



(** ** Sequences of tool calls *)

Lemma wrapper_tool_calls_run (u : string) (ids : list Z) (db : database)
    (ds : list dict) :
  Forall2 (λ p d, both_return u p db d) ids ds →
  BestPractice.tool_calls (BestPractice.__init__ u) ids db = Return ds db.
Proof.
  induction 1 as [|p d ids ds [_ Hb] _ IH]; [reflexivity |].
  cbn [BestPractice.tool_calls]. unfold bind at 1. rewrite Hb.
  cbn [outcome_bind]. unfold bind at 1. by rewrite IH.
Qed.

Lemma naive_tool_calls_run (calls : list (string * Z)) (db : database)
    (ds : list dict) :
  Forall2 (λ c d, both_return c.1 c.2 db d) calls ds →
  Naive.tool_calls calls db = Return ds db.
Proof.
  induction 1 as [|[u p] d calls ds [Hn _] _ IH]; [reflexivity |].
  cbn [Naive.tool_calls]. unfold bind at 1. cbn [fst snd] in Hn.
  rewrite Hn. cbn [outcome_bind]. unfold bind at 1. by rewrite IH.
Qed.





(** X9. What tells the two scripts apart.  Take a user without an
    authorized role, a user with one, and a stored patient.  Through the
    per-call tool, the call that names the first user is denied and the
    next call, naming the second, returns the patient's record.  Through
    the tool of a wrapper built for the first user both calls are
    denied. *)
Theorem identity_per_call_or_per_wrapper (db : database)
    (caller other : User.t) (row : Patient.t) :
  schema_ok db → caller ∈ users db → other ∈ users db →
  row ∈ patients db →
  User.role caller ∉ AUTHORIZED_ROLES →
  User.role other ∈ AUTHORIZED_ROLES →
  Naive.tool_calls
    [ (User.username caller, Patient.id row);
      (User.username other, Patient.id row) ] db
  = Return [ insufficient_privileges; patient_record row ] db ∧
  BestPractice.tool_calls (BestPractice.__init__ (User.username caller))
    [ Patient.id row; Patient.id row ] db
  = Return [ insufficient_privileges; insufficient_privileges ] db.
Proof.
  intros Hok Hcaller Hother Hrow Hno Hyes.
  pose proof Hok as (_ & Hnames & _).
  pose proof (role_of_row db caller Hnames Hcaller) as Hc.
  pose proof (role_of_row db other Hnames Hother) as Ho.
  pose proof (run_unauthorized _ _ (Patient.id row) db Hc Hno) as Hdenied.
  split.
  - apply naive_tool_calls_run.
    constructor; [exact Hdenied |]. constructor; [| constructor].
    cbn [fst snd]. apply (run_patient_found _ _ _ _ row Ho Hyes).
    + destruct Hok as (_ & _ & _ & _ & Hrange).
      rewrite Forall_forall in Hrange. apply Hrange.
      by apply list_elem_of_fmap_2.
    + by apply patient_by_id_row.
  - apply wrapper_tool_calls_run.
    constructor; [exact Hdenied |]. constructor; [exact Hdenied |].
    constructor.
Qed.

Lemma identity_per_call_or_per_wrapper_witness :
  Naive.tool_calls [ ("receptionist_amy", 3); ("dr_smith", 3) ]
    seeded_database
  = Return [ insufficient_privileges;
             patient_record (Patient.mk 3 "Mary Major" "Dr. Brown" "Asthma") ]
      seeded_database ∧
  BestPractice.tool_calls (BestPractice.__init__ "receptionist_amy") [3; 3]
    seeded_database
  = Return [ insufficient_privileges; insufficient_privileges ]
      seeded_database.
Proof.
  apply (identity_per_call_or_per_wrapper seeded_database
           (User.mk 3 "receptionist_amy" "receptionist")
           (User.mk 1 "dr_smith" "doctor")
           (Patient.mk 3 "Mary Major" "Dr. Brown" "Asthma")).
  - exact seeded_schema_ok.
  - apply (bool_decide_unpack _). vm_compute. exact I.
  - apply (bool_decide_unpack _). vm_compute. exact I.
  - apply (bool_decide_unpack _). vm_compute. exact I.
  - apply (bool_decide_unpack _). vm_compute. exact I.
  - apply (bool_decide_unpack _). vm_compute. exact I.
Defined.

(** ** The shape of an answer *)


